(** * Sage wallet front end: the command wrappers and the NFT card workflow

    A shallow embedding of [src/commands.ts] (the thin wrappers around the
    native bridge) and of [src/components/NftCard.tsx] (the per-card action
    handlers, the dropdown menu and the confirmation summary slot), with the
    properties of the workflow stated over them. *)

From Stdlib Require Import String Ascii List ZArith QArith Bool Lia.
From Stdlib Require Import DecimalString Permutation.
Import ListNotations.
Close Scope Q_scope.
Open Scope string_scope.

(* ================================================================= *)
(** ** [src/commands.ts] *)

Module Commands.

Section Bridge.

(** Whatever the backend sends back through the bridge; the wrappers never
    look inside it. *)
Context {Value : Type}.
(** The error value a backend command reports. *)
Context {Cause : Type}.
(** [DerivationMode] comes from [./models], which is only imported here. *)
Context {DerivationMode : Type}.

(** The argument object handed to [invoke]: field name, field value. *)
Inductive Arg : Type :=
| ANumber (n : Z)
| AString (s : string)
| ABoolean (b : bool)
| AMode (m : DerivationMode).

Definition Args : Type := list (string * Arg).

(** Why a bridge promise rejected: the backend command itself reported a
    failure, or the bridge could not carry the call. *)
Inductive Rejection : Type :=
| BackendError (cause : Cause)
| BoundaryFault (msg : string).

(** A settled promise.  A rejected promise that is awaited inside an
    [async] function without [try]/[catch] raises there, and the function's
    own promise rejects with the same reason. *)
Inductive Promise (A : Type) : Type :=
| Fulfilled (a : A)
| Rejected (r : Rejection).

Arguments Fulfilled {A} a.
Arguments Rejected {A} r.

(** [invoke] of [@tauri-apps/api/core]: the environment decides how each
    call settles. *)
Variable invoke : string -> Args -> Promise Value.

(** [await p] followed by the rest of the function body. *)
Definition await {A B : Type} (p : Promise A) (k : A -> Promise B)
  : Promise B :=
  match p with
  | Fulfilled a => k a
  | Rejected r => Rejected r
  end.

Notation "'let!' x ':=' p 'in' k" := (await p (fun x => k))
  (at level 10, x pattern, k at level 200).

(** The thirteen exported functions, in source order.  Those declared
    [Promise<void>] drop the bridge's value; the others return it. *)

Definition initialize : Promise unit :=
  let! _ := invoke "initialize" [] in Fulfilled tt.

Definition activeWallet : Promise Value :=
  let! v := invoke "active_wallet" [] in Fulfilled v.

Definition walletConfig (fingerprint : Z) : Promise Value :=
  let! v := invoke "wallet_config" [("fingerprint", ANumber fingerprint)]
  in Fulfilled v.

Definition loginWallet (fingerprint : Z) : Promise unit :=
  let! _ := invoke "login_wallet" [("fingerprint", ANumber fingerprint)]
  in Fulfilled tt.

Definition logoutWallet : Promise unit :=
  let! _ := invoke "logout_wallet" [] in Fulfilled tt.

Definition walletList : Promise Value :=
  let! v := invoke "wallet_list" [] in Fulfilled v.

Definition generateMnemonic (use24Words : bool) : Promise Value :=
  let! v := invoke "generate_mnemonic" [("use24Words", ABoolean use24Words)]
  in Fulfilled v.

Definition createWallet (name mnemonic : string) (saveMnemonic : bool)
  : Promise unit :=
  let! _ := invoke "create_wallet"
              [("name", AString name); ("mnemonic", AString mnemonic);
               ("saveMnemonic", ABoolean saveMnemonic)]
  in Fulfilled tt.

Definition importWallet (name key : string) : Promise unit :=
  let! _ := invoke "import_wallet"
              [("name", AString name); ("key", AString key)]
  in Fulfilled tt.

Definition deleteWallet (fingerprint : Z) : Promise unit :=
  let! _ := invoke "delete_wallet" [("fingerprint", ANumber fingerprint)]
  in Fulfilled tt.

Definition renameWallet (fingerprint : Z) (name : string) : Promise unit :=
  let! _ := invoke "rename_wallet"
              [("fingerprint", ANumber fingerprint); ("name", AString name)]
  in Fulfilled tt.

Definition setDerivationMode (fingerprint : Z) (derivationMode : DerivationMode)
  : Promise unit :=
  let! _ := invoke "set_derivation_mode"
              [("fingerprint", ANumber fingerprint);
               ("derivationMode", AMode derivationMode)]
  in Fulfilled tt.

Definition setDerivationBatchSize (fingerprint derivationBatchSize : Z)
  : Promise unit :=
  let! _ := invoke "set_derivation_batch_size"
              [("fingerprint", ANumber fingerprint);
               ("derivationBatchSize", ANumber derivationBatchSize)]
  in Fulfilled tt.

(** One name per exported function, to quantify over all of them. *)
Inductive Op : Type :=
| OpInitialize
| OpActiveWallet
| OpWalletConfig (fingerprint : Z)
| OpLoginWallet (fingerprint : Z)
| OpLogoutWallet
| OpWalletList
| OpGenerateMnemonic (use24Words : bool)
| OpCreateWallet (name mnemonic : string) (saveMnemonic : bool)
| OpImportWallet (name key : string)
| OpDeleteWallet (fingerprint : Z)
| OpRenameWallet (fingerprint : Z) (name : string)
| OpSetDerivationMode (fingerprint : Z) (derivationMode : DerivationMode)
| OpSetDerivationBatchSize (fingerprint derivationBatchSize : Z).

Definition dropped (p : Promise unit) : Promise (option Value) :=
  let! _ := p in Fulfilled None.

Definition returned (p : Promise Value) : Promise (option Value) :=
  let! v := p in Fulfilled (Some v).

(** Calling an exported function; [None] stands for [undefined]. *)
Definition run (o : Op) : Promise (option Value) :=
  match o with
  | OpInitialize => dropped initialize
  | OpActiveWallet => returned activeWallet
  | OpWalletConfig f => returned (walletConfig f)
  | OpLoginWallet f => dropped (loginWallet f)
  | OpLogoutWallet => dropped logoutWallet
  | OpWalletList => returned walletList
  | OpGenerateMnemonic b => returned (generateMnemonic b)
  | OpCreateWallet n m s => dropped (createWallet n m s)
  | OpImportWallet n k => dropped (importWallet n k)
  | OpDeleteWallet f => dropped (deleteWallet f)
  | OpRenameWallet f n => dropped (renameWallet f n)
  | OpSetDerivationMode f m => dropped (setDerivationMode f m)
  | OpSetDerivationBatchSize f n => dropped (setDerivationBatchSize f n)
  end.

(** The backend command an operation names, as the interface table of the
    wrappers reads: command name, argument object, and whether the wrapper
    hands the payload back. *)
Definition command_name (o : Op) : string :=
  match o with
  | OpInitialize => "initialize"
  | OpActiveWallet => "active_wallet"
  | OpWalletConfig _ => "wallet_config"
  | OpLoginWallet _ => "login_wallet"
  | OpLogoutWallet => "logout_wallet"
  | OpWalletList => "wallet_list"
  | OpGenerateMnemonic _ => "generate_mnemonic"
  | OpCreateWallet _ _ _ => "create_wallet"
  | OpImportWallet _ _ => "import_wallet"
  | OpDeleteWallet _ => "delete_wallet"
  | OpRenameWallet _ _ => "rename_wallet"
  | OpSetDerivationMode _ _ => "set_derivation_mode"
  | OpSetDerivationBatchSize _ _ => "set_derivation_batch_size"
  end.

Definition command_args (o : Op) : Args :=
  match o with
  | OpInitialize | OpActiveWallet | OpLogoutWallet | OpWalletList => []
  | OpWalletConfig f | OpLoginWallet f | OpDeleteWallet f =>
      [("fingerprint", ANumber f)]
  | OpGenerateMnemonic b => [("use24Words", ABoolean b)]
  | OpCreateWallet n m s =>
      [("name", AString n); ("mnemonic", AString m);
       ("saveMnemonic", ABoolean s)]
  | OpImportWallet n k => [("name", AString n); ("key", AString k)]
  | OpRenameWallet f n => [("fingerprint", ANumber f); ("name", AString n)]
  | OpSetDerivationMode f m =>
      [("fingerprint", ANumber f); ("derivationMode", AMode m)]
  | OpSetDerivationBatchSize f n =>
      [("fingerprint", ANumber f); ("derivationBatchSize", ANumber n)]
  end.

Definition hands_back_payload (o : Op) : bool :=
  match o with
  | OpActiveWallet | OpWalletConfig _ | OpWalletList
  | OpGenerateMnemonic _ => true
  | _ => false
  end.

(** The operation raises a failure that the backend reported, instead of
    returning it as a value. *)
Definition throws_backend_failure (o : Op) : Prop :=
  exists cause, run o = Rejected (BackendError cause).

End Bridge.

Arguments Fulfilled {Cause A} a.
Arguments Rejected {Cause A} r.

End Commands.

(* ================================================================= *)
(** ** [src/components/NftCard.tsx] *)

Module NftCard.

(** The fields of [NftRecord] (from [@/bindings]) that the card reads.
    [created_height] is [number | null]. *)
Record NftRecord : Type := {
  launcher_id : string;
  name : option string;
  collection_name : option string;
  visible : bool;
  created_height : option Z;
  owner_did : option string
}.

(** The fields of [walletState.sync] that the card reads;
    [unit_decimals] is [sync.unit.decimals]. *)
Record SyncState : Type := {
  balance : string;
  unit_decimals : Z;
  burn_address : string
}.

(** The four operations of the generated [commands] client that the card
    calls, with the arguments of the call sites.  [did_id] is [null] when
    absent; the URI kind is the form's string, cast unchecked. *)
Inductive Command : Type :=
| updateNft (nft_id : string) (is_visible : bool)
| transferNfts (nft_ids : list string) (address fee : string)
| assignNftsToDid (nft_ids : list string) (did_id : option string)
    (fee : string)
| addNftUri (nft_id uri kind fee : string).

(** The [then] callback waiting on an issued call. *)
Inductive Handler : Type :=
| ToggleVisibility
| TransferSubmit
| AssignSubmit
| UnassignSubmit
| AddUrlSubmit
| BurnSubmit.

(** The entries of the dropdown menu. *)
Inductive Action : Type :=
| Transfer
| Assign
| Unassign
| AddUrl
| Burn
| Visibility.

Scheme Equality for Action.

Record MenuItem : Type := {
  action : Action;
  label : string;
  disabled : bool
}.

(** The values of the Add URL form. *)
Record AddUrlValues : Type := {
  url : string;
  kind : string;
  fee : string
}.

Definition defaultValues : AddUrlValues :=
  {| url := ""; kind := "data"; fee := "0" |}.

(** JavaScript's [!x] on a [number | null]. *)
Definition not_ (x : option Z) : bool :=
  match x with
  | None => true
  | Some n => (n =? 0)%Z
  end.

Section Card.

(** Opaque payloads from [@/bindings]. *)
Context {TransactionSummary : Type}.
Context {Error : Type}.

(** [Result<T, Error>]: [{status: 'ok', data}] or [{status: 'error', error}]. *)
Inductive Result (T : Type) : Type :=
| status_ok (data : T)
| status_error (error : Error).

Arguments status_ok {T} data.
Arguments status_error {T} error.

(** How an issued call settles: with a result of the type the operation
    declares, or rejected (the [then] callback is then never run). *)
Inductive Response : Type :=
| Null (result : Result unit)
| Summary (result : Result TransactionSummary)
| Fault.

(** What the card does to the outside world. *)
Inductive Event : Type :=
| Invoke (c : Command)
| ConsoleError (msg : string) (error : Error)
| UpdateNfts
| Throw (msg : string).

(** The [useState] cells of the component and the form values. *)
Record State : Type := {
  transferOpen : bool;
  assignOpen : bool;
  unassignOpen : bool;
  addUrlOpen : bool;
  burnOpen : bool;
  summary : option TransactionSummary;
  addUrlForm : AddUrlValues
}.

(** The component together with the calls in flight and the effects so
    far, oldest first. *)
Record World : Type := {
  state : State;
  pending : list Handler;
  trace : list Event
}.

Definition initial : World :=
  {| state := {| transferOpen := false; assignOpen := false;
                 unassignOpen := false; addUrlOpen := false;
                 burnOpen := false; summary := None;
                 addUrlForm := defaultValues |};
     pending := []; trace := [] |}.

Definition Eff : Type := World -> World.

Definition modify (f : State -> State) : Eff :=
  fun w => {| state := f (state w); pending := pending w; trace := trace w |}.

Definition emit (e : Event) : Eff :=
  fun w => {| state := state w; pending := pending w;
              trace := trace w ++ [e] |}.

(** [commands.op(args).then(callback)]: the call goes out now, the
    callback runs when the call settles. *)
Definition call (c : Command) (h : Handler) : Eff :=
  fun w => {| state := state w; pending := pending w ++ [h];
              trace := trace w ++ [Invoke c] |}.

Definition seq (a b : Eff) : Eff := fun w => b (a w).

Notation "a ;; b" := (seq a b) (at level 61, right associativity).

Definition setTransferOpen (b : bool) : Eff :=
  modify (fun s =>
    {| transferOpen := b; assignOpen := assignOpen s;
       unassignOpen := unassignOpen s; addUrlOpen := addUrlOpen s;
       burnOpen := burnOpen s; summary := summary s;
       addUrlForm := addUrlForm s |}).

Definition setAssignOpen (b : bool) : Eff :=
  modify (fun s =>
    {| transferOpen := transferOpen s; assignOpen := b;
       unassignOpen := unassignOpen s; addUrlOpen := addUrlOpen s;
       burnOpen := burnOpen s; summary := summary s;
       addUrlForm := addUrlForm s |}).

Definition setUnassignOpen (b : bool) : Eff :=
  modify (fun s =>
    {| transferOpen := transferOpen s; assignOpen := assignOpen s;
       unassignOpen := b; addUrlOpen := addUrlOpen s;
       burnOpen := burnOpen s; summary := summary s;
       addUrlForm := addUrlForm s |}).

Definition setAddUrlOpen (b : bool) : Eff :=
  modify (fun s =>
    {| transferOpen := transferOpen s; assignOpen := assignOpen s;
       unassignOpen := unassignOpen s; addUrlOpen := b;
       burnOpen := burnOpen s; summary := summary s;
       addUrlForm := addUrlForm s |}).

Definition setBurnOpen (b : bool) : Eff :=
  modify (fun s =>
    {| transferOpen := transferOpen s; assignOpen := assignOpen s;
       unassignOpen := unassignOpen s; addUrlOpen := addUrlOpen s;
       burnOpen := b; summary := summary s;
       addUrlForm := addUrlForm s |}).

Definition setSummary (v : option TransactionSummary) : Eff :=
  modify (fun s =>
    {| transferOpen := transferOpen s; assignOpen := assignOpen s;
       unassignOpen := unassignOpen s; addUrlOpen := addUrlOpen s;
       burnOpen := burnOpen s; summary := v;
       addUrlForm := addUrlForm s |}).

Definition setFormValues (v : AddUrlValues) : Eff :=
  modify (fun s =>
    {| transferOpen := transferOpen s; assignOpen := assignOpen s;
       unassignOpen := unassignOpen s; addUrlOpen := addUrlOpen s;
       burnOpen := burnOpen s; summary := summary s;
       addUrlForm := v |}).

(** The props and the wallet state of one render. *)
Variable nft : NftRecord.
Variable sync : SyncState.

(** *** The action handlers (lines 89-179) *)

Definition toggleVisibility : Eff :=
  call (updateNft (launcher_id nft) (negb (visible nft))) ToggleVisibility.

Definition toggleVisibility_then (result : Result unit) : Eff :=
  match result with
  | status_ok _ => emit UpdateNfts
  | status_error _ => emit (Throw "Failed to toggle visibility for NFT")
  end.

Definition onTransferSubmit (address fee : string) : Eff :=
  call (transferNfts [launcher_id nft] address fee) TransferSubmit.

Definition onTransferSubmit_then (result : Result TransactionSummary) : Eff :=
  setTransferOpen false ;;
  match result with
  | status_error e => emit (ConsoleError "Failed to transfer NFT" e)
  | status_ok data => setSummary (Some data)
  end.

Definition onAssignSubmit (profile fee : string) : Eff :=
  call (assignNftsToDid [launcher_id nft] (Some profile) fee) AssignSubmit.

Definition onAssignSubmit_then (result : Result TransactionSummary) : Eff :=
  setAssignOpen false ;;
  match result with
  | status_error e => emit (ConsoleError "Failed to assign NFT" e)
  | status_ok data => setSummary (Some data)
  end.

Definition onUnassignSubmit (fee : string) : Eff :=
  call (assignNftsToDid [launcher_id nft] None fee) UnassignSubmit.

Definition onUnassignSubmit_then (result : Result TransactionSummary) : Eff :=
  setUnassignOpen false ;;
  match result with
  | status_error e => emit (ConsoleError "Failed to unassign NFT" e)
  | status_ok data => setSummary (Some data)
  end.

Definition onAddUrlSubmit (values : AddUrlValues) : Eff :=
  call (addNftUri (launcher_id nft) (url values) (kind values) (fee values))
       AddUrlSubmit.

Definition onAddUrlSubmit_then (result : Result TransactionSummary) : Eff :=
  setAddUrlOpen false ;;
  match result with
  | status_error e => emit (ConsoleError "Failed to add NFT URL" e)
  | status_ok data => setSummary (Some data)
  end.

Definition onBurnSubmit (fee : string) : Eff :=
  call (transferNfts [launcher_id nft] (burn_address sync) fee) BurnSubmit.

Definition onBurnSubmit_then (result : Result TransactionSummary) : Eff :=
  setBurnOpen false ;;
  match result with
  | status_error e => emit (ConsoleError "Failed to burn NFT" e)
  | status_ok data => setSummary (Some data)
  end.

(** The two callbacks handed to [ConfirmationDialog] (lines 438-439). *)
Definition close : Eff := setSummary None.
Definition onConfirm : Eff := emit UpdateNfts.

(** *** The Add URL form (lines 132-166, 342-425) *)

(** [BigNumber(s)] of [bignumber.js]: the decimal value of the string, or
    [None] for [NaN]. *)
Variable BigNumber : string -> option Q.

(** [amount(decimals)] of [@/lib/formTypes], which is only imported here:
    whether the string is accepted as an amount with that many decimals. *)
Variable amount : Z -> string -> bool.

(** [x.gte(y)]: false as soon as either side is [NaN]. *)
Definition gte (x y : option Q) : bool :=
  match x, y with
  | Some a, Some b => Qle_bool b a
  | _, _ => false
  end.

(** [BigNumber(amount || 0)]: the empty string is falsy and counts as 0. *)
Definition or_zero (a : string) : option Q :=
  if (a =? "")%string then Some 0%Q else BigNumber a.

(** [z.string().min(1, ...)]. *)
Definition min1 (s : string) : bool := (1 <=? String.length s)%nat.

Definition fee_refine (a : string) : bool :=
  gte (BigNumber (balance sync)) (or_zero a).

Definition addUrlFormSchema (values : AddUrlValues) : bool :=
  min1 (url values)
  && min1 (kind values)
  && (amount (unit_decimals sync) (fee values) && fee_refine (fee values)).

(** [addUrlForm.handleSubmit(onAddUrlSubmit)] with the zod resolver: the
    handler runs only on values the schema accepts. *)
Definition addUrlForm_handleSubmit : Eff :=
  fun w =>
    if addUrlFormSchema (addUrlForm (state w))
    then onAddUrlSubmit (addUrlForm (state w)) w
    else w.

(** *** The dropdown menu (lines 220-311) *)

Definition menu : list MenuItem :=
  [ {| action := Transfer; label := "Transfer";
       disabled := not_ (created_height nft) |};
    {| action := Assign;
       label := match owner_did nft with
                | None => "Assign Profile"
                | Some _ => "Reassign Profile"
                end;
       disabled := not_ (created_height nft) |} ]
  ++ match owner_did nft with
     | Some _ => [ {| action := Unassign; label := "Unassign Profile";
                      disabled := not_ (created_height nft) |} ]
     | None => []
     end
  ++ [ {| action := AddUrl; label := "Add URL";
          disabled := not_ (created_height nft) |};
       {| action := Burn; label := "Burn";
          disabled := not_ (created_height nft) |};
       {| action := Visibility;
          label := if visible nft then "Hide" else "Show";
          disabled := false |} ].

Definition onClick (a : Action) : Eff :=
  match a with
  | Transfer => setTransferOpen true
  | Assign => setAssignOpen true
  | Unassign => setUnassignOpen true
  | AddUrl => setFormValues defaultValues ;; setAddUrlOpen true
  | Burn => setBurnOpen true
  | Visibility => toggleVisibility
  end.

Definition enabled (a : Action) : bool :=
  existsb (fun it => Action_beq (action it) a && negb (disabled it)) menu.

(** Selecting an entry: an entry that is not rendered or is disabled does
    not react. *)
Definition click (a : Action) : Eff :=
  fun w => if enabled a then onClick a w else w.

(** The [setOpen] callback each dialog receives (lines 318, 327, 336, 342,
    430). *)
Definition setOpen (a : Action) (b : bool) : Eff :=
  match a with
  | Transfer => setTransferOpen b
  | Assign => setAssignOpen b
  | Unassign => setUnassignOpen b
  | AddUrl => setAddUrlOpen b
  | Burn => setBurnOpen b
  | Visibility => fun w => w
  end.

(** *** Collaborators that are imported but not among the sources *)

Definition non_empty (s : string) : bool := negb (s =? "")%string.

(** Modelled from the spec: the fee check of [TransferDialog],
    [AssignNftDialog] and [FeeOnlyDialog], which the card imports but which
    are not among the sources.  Validation policy of the Action Workflow:
    the fee parses as a non-negative decimal amount in the wallet's
    configured unit, and is at most the currently known balance. *)
Definition dialog_fee_valid (a : string) : bool :=
  amount (unit_decimals sync) a
  && match BigNumber a with
     | Some f => Qle_bool 0 f && gte (BigNumber (balance sync)) (Some f)
     | None => false
     end.

(** Modelled from the spec: [TransferDialog]'s submit is missing from the
    sources.  From [Open], validation (fee, destination address non-empty)
    is synchronous and precedes the one call; an invalid submission issues
    nothing. *)
Definition TransferDialog_submit (address fee : string) : Eff :=
  fun w =>
    if transferOpen (state w) && (non_empty address && dialog_fee_valid fee)
    then onTransferSubmit address fee w
    else w.

(** Modelled from the spec: [AssignNftDialog]'s submit is missing from the
    sources.  As for transfer, with the profile reference as the
    action-specific field. *)
Definition AssignNftDialog_submit (profile fee : string) : Eff :=
  fun w =>
    if assignOpen (state w) && (non_empty profile && dialog_fee_valid fee)
    then onAssignSubmit profile fee w
    else w.

(** Modelled from the spec: [FeeOnlyDialog]'s submit is missing from the
    sources.  Only the fee is validated; [open] and [onSubmit] are the
    props of the instance (unassign or burn). *)
Definition FeeOnlyDialog_submit (open : bool) (onSubmit : string -> Eff)
    (fee : string) : Eff :=
  fun w => if open && dialog_fee_valid fee then onSubmit fee w else w.

(** Modelled from the spec: [ConfirmationDialog] is missing from the
    sources.  Confirmation Gate, [confirm()]: clears the pending summary
    and invokes the refresh callback; no-op if nothing is pending.  The
    card wires clearing to [close] and refreshing to [onConfirm]. *)
Definition gate_confirm : Eff :=
  fun w =>
    match summary (state w) with
    | Some _ => (close ;; onConfirm) w
    | None => w
    end.

(** Modelled from the spec: [ConfirmationDialog] is missing from the
    sources.  Confirmation Gate, [dismiss()]: clears the pending summary
    without invoking refresh; no-op if nothing is pending. *)
Definition gate_dismiss : Eff :=
  fun w =>
    match summary (state w) with
    | Some _ => close w
    | None => w
    end.

(** *** The card as a transition system *)

Inductive Submission : Type :=
| SubmitTransfer (address fee : string)
| SubmitAssign (profile fee : string)
| SubmitUnassign (fee : string)
| SubmitAddUrl
| SubmitBurn (fee : string).

(** What can happen to the card: the user acts on the menu, a dialog or the
    gate, or a call in flight settles.  Nothing here restricts which of them
    the user can reach while a dialog is shown. *)
Inductive Input : Type :=
| Click (a : Action)
| Edit (values : AddUrlValues)
| Submit (s : Submission)
| Cancel (a : Action)
| Confirm
| Dismiss
| Settle (n : nat) (r : Response).

Definition submit (s : Submission) : Eff :=
  match s with
  | SubmitTransfer address fee => TransferDialog_submit address fee
  | SubmitAssign profile fee => AssignNftDialog_submit profile fee
  | SubmitUnassign fee =>
      fun w => FeeOnlyDialog_submit (unassignOpen (state w))
                 onUnassignSubmit fee w
  | SubmitAddUrl =>
      fun w => if addUrlOpen (state w) then addUrlForm_handleSubmit w else w
  | SubmitBurn fee =>
      fun w => FeeOnlyDialog_submit (burnOpen (state w)) onBurnSubmit fee w
  end.

(** The fee a submission carries. *)
Definition submitted_fee (w : World) (s : Submission) : string :=
  match s with
  | SubmitTransfer _ fee | SubmitAssign _ fee | SubmitUnassign fee
  | SubmitBurn fee => fee
  | SubmitAddUrl => fee (addUrlForm (state w))
  end.

(** Mutating handlers: all but the visibility toggle. *)
Definition mutating (h : Handler) : bool :=
  match h with ToggleVisibility => false | _ => true end.

(** The [then] callback of a mutating handler, by name. *)
Definition callback (h : Handler) (result : Result TransactionSummary) : Eff :=
  match h with
  | ToggleVisibility => fun w => w
  | TransferSubmit => onTransferSubmit_then result
  | AssignSubmit => onAssignSubmit_then result
  | UnassignSubmit => onUnassignSubmit_then result
  | AddUrlSubmit => onAddUrlSubmit_then result
  | BurnSubmit => onBurnSubmit_then result
  end.

(** The [then] callback of a handler applied to the settled call: skipped
    when the promise rejected; [None] when the response is not of the type
    the operation declares. *)
Definition resume (h : Handler) (r : Response) : option Eff :=
  match r, h with
  | Fault, _ => Some (fun w => w)
  | Null result, ToggleVisibility => Some (toggleVisibility_then result)
  | Summary result, _ =>
      if mutating h then Some (callback h result) else None
  | _, _ => None
  end.

Definition forget (n : nat) : Eff :=
  fun w => {| state := state w;
              pending := firstn n (pending w) ++ skipn (S n) (pending w);
              trace := trace w |}.

(** The [n]-th call in flight settles with [r]. *)
Definition settle (n : nat) (r : Response) : Eff :=
  fun w =>
    match nth_error (pending w) n with
    | None => w
    | Some h =>
        match resume h r with
        | None => w
        | Some k => k (forget n w)
        end
    end.

(** The gate as a guarded slot would have it: whatever settles, a pending
    summary stays the one it was. *)
Definition pending_summary_kept : Prop :=
  forall (w : World) (n : nat) (r : Response) (s : TransactionSummary),
    summary (state w) = Some s ->
    summary (state (settle n r w)) = Some s.

Definition step (w : World) (i : Input) : World :=
  match i with
  | Click a => click a w
  | Edit values =>
      if addUrlOpen (state w) then setFormValues values w else w
  | Submit s => submit s w
  | Cancel a => setOpen a false w
  | Confirm => gate_confirm w
  | Dismiss => gate_dismiss w
  | Settle n r => settle n r w
  end.

Definition run (w : World) (inputs : list Input) : World :=
  fold_left step inputs w.

(** *** Observations on a run *)

Definition is_invoke (e : Event) : bool :=
  match e with Invoke _ => true | _ => false end.

Definition is_refresh (e : Event) : bool :=
  match e with UpdateNfts => true | _ => false end.

(** How many Command Client calls, and how many refreshes, so far. *)
Definition calls (w : World) : nat :=
  List.length (filter is_invoke (trace w)).

Definition refreshes (w : World) : nat :=
  List.length (filter is_refresh (trace w)).

(** The dialog flag a mutating handler's callback resets. *)
Definition surface_open (h : Handler) (s : State) : bool :=
  match h with
  | ToggleVisibility => false
  | TransferSubmit => transferOpen s
  | AssignSubmit => assignOpen s
  | UnassignSubmit => unassignOpen s
  | AddUrlSubmit => addUrlOpen s
  | BurnSubmit => burnOpen s
  end.

(** The text each handler puts next to the error it received. *)
Definition failure_message (h : Handler) : string :=
  match h with
  | ToggleVisibility => "Failed to toggle visibility for NFT"
  | TransferSubmit => "Failed to transfer NFT"
  | AssignSubmit => "Failed to assign NFT"
  | UnassignSubmit => "Failed to unassign NFT"
  | AddUrlSubmit => "Failed to add NFT URL"
  | BurnSubmit => "Failed to burn NFT"
  end.

End Card.

Arguments status_ok {Error T} data.
Arguments status_error {Error T} error.

(** The call shapes of the interface table, in its words: assign-profile
    takes the entity ids, a profile reference or null (null = unassign) and
    a fee; burn is a transfer of the entity ids to the burn address. *)
Definition spec_assign_profile (ids : list string) (profile : option string)
    (fee : string) : Command :=
  assignNftsToDid ids profile fee.

Definition spec_transfer (ids : list string) (address fee : string)
  : Command :=
  transferNfts ids address fee.

Definition spec_burn (ids : list string) (burn_addr fee : string) : Command :=
  spec_transfer ids burn_addr fee.

End NftCard.

(* ================================================================= *)
(** ** A concrete host, for running the card on examples *)

Module Demo.

Definition digit (c : ascii) : option Z :=
  let n := Z.of_nat (nat_of_ascii c) in
  if ((48 <=? n) && (n <=? 57))%Z then Some (n - 48)%Z else None.

(** Value and length of a run of decimal digits. *)
Fixpoint digits (s : string) (acc : Z) (len : nat) : option (Z * nat) :=
  match s with
  | EmptyString => Some (acc, len)
  | String c rest =>
      match digit c with
      | Some d => digits rest (10 * acc + d)%Z (S len)
      | None => None
      end
  end.

Fixpoint split_dot (s : string) : string * option string :=
  match s with
  | EmptyString => (EmptyString, None)
  | String c rest =>
      if Ascii.eqb c "."%char then (EmptyString, Some rest)
      else let (a, b) := split_dot rest in (String c a, b)
  end.

(** Plain decimal literals, [12] or [0.001]; on these [BigNumber] yields
    the same value.  Everything else is treated as [NaN] here. *)
Definition decimal_literal (s : string) : option Q :=
  let (int_part, frac_part) := split_dot s in
  match digits int_part 0 0 with
  | Some (i, S _) =>
      match frac_part with
      | None => Some (i # 1)%Q
      | Some fs =>
          match digits fs 0 0 with
          | Some (f, S n) =>
              Some ((i * 10 ^ Z.of_nat (S n) + f)%Z
                    # Pos.of_nat (Nat.pow 10 (S n)))%Q
          | _ => None
          end
      end
  | _ => None
  end.

Definition fraction_digits (s : string) : Z :=
  match snd (split_dot s) with
  | Some fs => Z.of_nat (String.length fs)
  | None => 0%Z
  end.

(** An amount schema: a plain literal with no more fraction digits than
    the unit has decimals. *)
Definition amount (decimals : Z) (s : string) : bool :=
  match decimal_literal s with
  | Some _ => (fraction_digits s <=? decimals)%Z
  | None => false
  end.

Definition nft : NftCard.NftRecord :=
  {| NftCard.launcher_id := "nft1x";
     NftCard.name := Some "X";
     NftCard.collection_name := None;
     NftCard.visible := true;
     NftCard.created_height := Some 100%Z;
     NftCard.owner_did := None |}.

Definition unconfirmed : NftCard.NftRecord :=
  {| NftCard.launcher_id := "nft1x";
     NftCard.name := Some "X";
     NftCard.collection_name := None;
     NftCard.visible := true;
     NftCard.created_height := None;
     NftCard.owner_did := Some "did1p" |}.

Definition sync : NftCard.SyncState :=
  {| NftCard.balance := "0.01";
     NftCard.unit_decimals := 12%Z;
     NftCard.burn_address := "xch1burn" |}.

(** The card of [nft] on this host, with numbered summaries and textual
    errors. *)
Definition World : Type := @NftCard.World nat string.
Definition initial : World := NftCard.initial.
Definition step : World -> NftCard.Input -> World :=
  NftCard.step nft sync decimal_literal amount.
Definition run : World -> list NftCard.Input -> World :=
  NftCard.run nft sync decimal_literal amount.

(** A transfer to [addr1] with fee [0.001] has been submitted and is in
    flight. *)
Definition submitted : World :=
  run initial
    [NftCard.Click NftCard.Transfer;
     NftCard.Submit (NftCard.SubmitTransfer "addr1" "0.001")].

(** What the user typed into the Add URL form. *)
Definition typed (fee : string) : NftCard.AddUrlValues :=
  {| NftCard.url := "https://example.org/a.png";
     NftCard.kind := "data";
     NftCard.fee := fee |}.

(** The Add URL dialog is open with a fee of [0.02] typed in. *)
Definition overpriced : World :=
  run initial
    [NftCard.Click NftCard.AddUrl; NftCard.Edit (typed "0.02")].

(** The Add URL form was submitted twice before the backend answered, and
    the first answer, summary number 1, has arrived. *)
Definition first_answered : World :=
  run initial
    [NftCard.Click NftCard.AddUrl;
     NftCard.Edit (typed "0");
     NftCard.Submit NftCard.SubmitAddUrl;
     NftCard.Submit NftCard.SubmitAddUrl;
     NftCard.Settle 0 (NftCard.Summary (NftCard.status_ok 1))].

End Demo.

(* ================================================================= *)
(** ** The card as its collaborators drive it *)

Module Wiring.

Import NftCard.

Section Wiring.

Context {TransactionSummary Error : Type}.

Local Abbreviation World := (@World TransactionSummary Error).

Variable nft : NftRecord.
Variable sync : SyncState.
Variable BigNumber : string -> option Q.
Variable amount : Z -> string -> bool.

(** Every function the card hands to the menu, the dialogs, the form and
    the confirmation dialog, with the arguments the receiver chooses, and
    the settling of a call in flight.  Whatever the collaborators do, they
    can only drive the card through these. *)
Inductive Callback : Type :=
| Select (a : Action)
| FormChange (values : AddUrlValues)
| FormSubmit
| SetOpen (a : Action) (b : bool)
| OnTransferSubmit (address fee : string)
| OnAssignSubmit (profile fee : string)
| OnUnassignSubmit (fee : string)
| OnBurnSubmit (fee : string)
| Close
| OnConfirm
| Settled (n : nat) (r : @Response TransactionSummary Error).

Definition react (w : World) (c : Callback) : World :=
  match c with
  | Select a => click nft a w
  | FormChange values => setFormValues values w
  | FormSubmit => addUrlForm_handleSubmit nft sync BigNumber amount w
  | SetOpen a b => setOpen a b w
  | OnTransferSubmit address fee => onTransferSubmit nft address fee w
  | OnAssignSubmit profile fee => onAssignSubmit nft profile fee w
  | OnUnassignSubmit fee => onUnassignSubmit nft fee w
  | OnBurnSubmit fee => onBurnSubmit nft sync fee w
  | Close => close w
  | OnConfirm => onConfirm w
  | Settled n r => settle n r w
  end.

Definition reacts (w : World) (cs : list Callback) : World :=
  fold_left react cs w.

(** The entity ids a command is about. *)
Definition targets (c : Command) : list string :=
  match c with
  | updateNft nft_id _ => [nft_id]
  | transferNfts nft_ids _ _ => nft_ids
  | assignNftsToDid nft_ids _ _ => nft_ids
  | addNftUri nft_id _ _ _ => [nft_id]
  end.

(** An effect that is not a call, or a call about this card's entity only. *)
Definition about_own_entity (e : @Event Error) : Prop :=
  match e with
  | Invoke c => targets c = [launcher_id nft]
  | _ => True
  end.

(** The callback runs [updateNfts]: the confirmation dialog's [onConfirm],
    or the visibility call settling with [ok]. *)
Definition refreshing (w : World) (c : Callback) : bool :=
  match c with
  | OnConfirm => true
  | Settled n (Null (status_ok _)) =>
      match nth_error (pending w) n with
      | Some ToggleVisibility => true
      | _ => false
      end
  | _ => false
  end.

(** The five dialog flags, in declaration order. *)
Definition flags (s : @State TransactionSummary) : list bool :=
  [transferOpen s; assignOpen s; unassignOpen s; addUrlOpen s; burnOpen s].

(** The position of a handler's own dialog flag in [flags]. *)
Definition flag_index (h : Handler) : option nat :=
  match h with
  | ToggleVisibility => None
  | TransferSubmit => Some 0%nat
  | AssignSubmit => Some 1%nat
  | UnassignSubmit => Some 2%nat
  | AddUrlSubmit => Some 3%nat
  | BurnSubmit => Some 4%nat
  end.

End Wiring.

End Wiring.

(* ================================================================= *)
(** ** The face of the card (NftCard.tsx, lines 181-218) *)

Module CardFace.

Import NftCard.




(** [nft.name ?? 'Unnamed'] and [nft.collection_name ?? 'No collection']. *)
Definition displayName (nft : NftRecord) : string :=
  match name nft with Some n => n | None => "Unnamed" end.

Definition displayCollection (nft : NftRecord) : string :=
  match collection_name nft with Some c => c | None => "No collection" end.

Definition showsCheckbox (selectionState : option bool) : bool :=
  match selectionState with Some _ => true | None => false end.

End CardFace.

(* ================================================================= *)
(** ** [src/components/Header.tsx] *)

Module Header.

(** The field of a peer record that the header reads. *)
Record PeerRecord : Type := { peak_height : Z }.

(** The fields of [walletState.sync] that the header reads. *)
Record SyncCounts : Type := {
  synced_coins : Z;
  total_coins : Z
}.

Definition isSynced (sync : SyncCounts) : bool :=
  (synced_coins sync =? total_coins sync)%Z.

(** [x || 0] on a number or [undefined]. *)
Definition or_zero (x : option Z) : Z :=
  match x with
  | Some n => if (n =? 0)%Z then 0%Z else n
  | None => 0%Z
  end.

(** [peers?.reduce((max, peer) => Math.max(max, peer.peak_height), 0) || 0];
    [peers] may be [null]. *)
Definition peerMaxHeight (peers : option (list PeerRecord)) : Z :=
  or_zero
    (option_map
       (fun ps => fold_left (fun max peer => Z.max max (peak_height peer))
                    ps 0%Z)
       peers).

(** [s.split(sep)] for a one-character separator. *)
Fixpoint split (sep : ascii) (s : string) : list string :=
  match s with
  | EmptyString => [EmptyString]
  | String c rest =>
      if Ascii.eqb c sep then EmptyString :: split sep rest
      else match split sep rest with
           | piece :: pieces => String c piece :: pieces
           | [] => [String c EmptyString]
           end
  end.

(** [props.back || location.pathname.split('/').length > 2], as the
    condition it is used for; [back] tells whether the prop was given. *)
Definition hasBackButton (back : bool) (pathname : string) : bool :=
  back || (2 <? List.length (split "/" pathname))%nat.

(** What the header asks of its surroundings. *)
Inductive HeaderEffect : Type :=
| CallBack
| Navigate (to : string)
| NavigateBy (delta : Z).

(** [props.back ? props.back() : navigate(-1)]. *)
Definition onBackClick (back : bool) : HeaderEffect :=
  if back then CallBack else NavigateBy (-1).

(** A number in a template literal. *)
Definition show (n : Z) : string :=
  DecimalString.NilZero.string_of_int (Z.to_int n).

(** The text next to the status dot (lines 92-101). *)
Definition statusText (sync : SyncCounts) (peers : option (list PeerRecord))
  : string :=
  if isSynced sync then
    match peers with
    | Some ps => show (Z.of_nat (List.length ps))
    | None => ""
    end
    ++ " peers"
    ++ (if (peerMaxHeight peers =? 0)%Z then " connecting..."
        else " at peak " ++ show (peerMaxHeight peers))
  else
    "Syncing " ++ show (synced_coins sync) ++ " / " ++ show (total_coins sync).

Definition dotClassName (sync : SyncCounts) : string :=
  "inline-flex h-3 w-3 m-0.5 rounded-full" ++ " "
  ++ (if isSynced sync then "bg-emerald-600" else "bg-yellow-600").

(** How many times a character occurs in a string. *)
Fixpoint occurrences (c : ascii) (s : string) : nat :=
  match s with
  | EmptyString => 0
  | String d rest => (if Ascii.eqb d c then 1 else 0) + occurrences c rest
  end.

End Header.

(* ================================================================= *)
(** ** Properties of the command wrappers *)

Section CommandFacts.

Import Commands.

Context {Value Cause DerivationMode : Type}.
Variable invoke : string -> @Args DerivationMode -> @Promise Cause Value.

Lemma await_fulfilled {A B : Type} (a : A) (k : A -> @Promise Cause B) :
  await (Fulfilled a) k = k a.
Proof. reflexivity. Qed.

Lemma await_rejected {A B : Type} (r : Rejection) (k : A -> @Promise Cause B) :
  await (Rejected r) k = Rejected r.
Proof. reflexivity. Qed.

(** C9, as the code has it: every function exported by [commands.ts]
    issues the one bridge call of its name and settles exactly as that
    call does.  When the call is fulfilled the function returns the payload
    itself (nothing for the [void] functions), not a status-tagged
    outcome; when the call is rejected the function raises with the
    bridge's own reason, whether that reason is a backend-reported failure
    or a boundary fault. *)
Theorem commands_settle_as_the_bridge_call (o : Op) :
  run invoke o =
  match invoke (command_name o) (command_args o) with
  | Fulfilled v => Fulfilled (if hands_back_payload o then Some v else None)
  | Rejected r => Rejected r
  end.
Proof.
  destruct o; cbn [run command_name command_args hands_back_payload];
    unfold dropped, returned, initialize, activeWallet, walletConfig,
      loginWallet, logoutWallet, walletList, generateMnemonic, createWallet,
      importWallet, deleteWallet, renameWallet, setDerivationMode,
      setDerivationBatchSize;
    match goal with
    | |- context [invoke ?n ?a] => destruct (invoke n a) as [v | r]
    end;
    now rewrite ?await_fulfilled, ?await_rejected.
Qed.

End CommandFacts.

(** C9, as stated, fails: when the backend reports a failure for
    [login_wallet], [loginWallet] raises it instead of returning an error
    value; and when the call succeeds it returns nothing, not an [ok]
    outcome. *)
Lemma loginWallet_raises_backend_failure :
  Commands.loginWallet (Value := unit) (DerivationMode := unit)
    (fun _ _ => Commands.Rejected (Commands.BackendError "unknown fingerprint"))
    1%Z
  = Commands.Rejected (Commands.BackendError "unknown fingerprint")
  /\ Commands.throws_backend_failure (Value := unit) (DerivationMode := unit)
       (fun _ _ =>
          Commands.Rejected (Commands.BackendError "unknown fingerprint"))
       (Commands.OpLoginWallet 1%Z)
  /\ Commands.loginWallet (Cause := string) (DerivationMode := unit)
       (fun _ _ => Commands.Fulfilled 0%Z) 1%Z
     = Commands.Fulfilled tt.
Proof.
  split; [reflexivity | split; [| reflexivity]].
  exists "unknown fingerprint". reflexivity.
Qed.

(* ================================================================= *)
(** ** Properties of the card *)

Section CardFacts.

Import NftCard.

Context {TransactionSummary Error : Type}.

Local Open Scope list_scope.

Local Abbreviation World := (@World TransactionSummary Error).
Local Abbreviation Result := (@Result Error).

Variable nft : NftRecord.
Variable sync : SyncState.
Variable BigNumber : string -> option Q.
Variable amount : Z -> string -> bool.

(** *** What each callback does to the component *)

Lemma callback_ok (h : Handler) (data : TransactionSummary) (w : World) :
  mutating h = true ->
  trace (callback h (status_ok data) w) = trace w
  /\ pending (callback h (status_ok data) w) = pending w
  /\ summary (state (callback h (status_ok data) w)) = Some data
  /\ surface_open h (state (callback h (status_ok data) w)) = false.
Proof. destruct h; intros Hm; try discriminate Hm; repeat split. Qed.

Lemma callback_error (h : Handler) (e : Error) (w : World) :
  mutating h = true ->
  trace (callback h (status_error e) w)
  = trace w ++ [ConsoleError (failure_message h) e]
  /\ pending (callback h (status_error e) w) = pending w
  /\ summary (state (callback h (status_error e) w)) = summary (state w)
  /\ surface_open h (state (callback h (status_error e) w)) = false.
Proof. destruct h; intros Hm; try discriminate Hm; repeat split. Qed.

Lemma settle_summary (n : nat) (h : Handler) (result : Result TransactionSummary)
    (w : World) :
  nth_error (pending w) n = Some h ->
  mutating h = true ->
  settle n (Summary result) w = callback h result (forget n w).
Proof.
  intros Hn Hm. unfold settle. rewrite Hn. cbn [resume]. now rewrite Hm.
Qed.

Lemma refreshes_emit (e : Event) (w : World) :
  refreshes (emit e w)
  = (refreshes w + if is_refresh e then 1 else 0)%nat.
Proof.
  unfold refreshes, emit. cbn [trace].
  rewrite filter_app, length_app. cbn [filter].
  destruct (is_refresh e); reflexivity.
Qed.

Lemma refreshes_trace (w w' : World) :
  trace w' = trace w -> refreshes w' = refreshes w.
Proof. unfold refreshes. now intros ->. Qed.

Lemma callback_refreshes (h : Handler) (result : Result TransactionSummary)
    (w : World) :
  refreshes (callback h result w) = refreshes w.
Proof.
  destruct h, result; try reflexivity;
    unfold refreshes; cbn; rewrite filter_app, length_app; cbn; lia.
Qed.

(** *** The summary slot *)

(** C1, as the code has it: the callback of every mutating handler
    (transfer, assign, unassign, add URL, burn) stores the summary of a
    successful outcome unconditionally, whatever the slot held before, and
    leaves the slot as it was on an error outcome; the visibility callback
    never touches the slot; the slot is emptied by the [close] callback
    handed to the confirmation dialog, and by nothing else in the card. *)
Theorem summary_stored_on_success_emptied_by_close (h : Handler) (w : World) :
  mutating h = true ->
  (forall data, summary (state (callback h (status_ok data) w)) = Some data)
  /\ (forall e,
        summary (state (callback h (status_error e) w)) = summary (state w))
  /\ (forall r, summary (state (toggleVisibility_then r w))
                = summary (state w))
  /\ summary (state (close w)) = None.
Proof.
  intros Hm. repeat split.
  - intros data. now apply callback_ok.
  - intros e. now apply callback_error.
  - intros [u | e]; reflexivity.
Qed.

(** C3: the callback of a mutating handler, on a successful outcome, stores
    the summary and produces no effect at all, so no refresh; settling a
    summary-returning call never changes the number of refreshes; confirming
    the stored summary through the gate invokes [updateNfts] exactly once
    and empties the slot, so that a second confirm does nothing. *)
Theorem refresh_once_and_only_on_confirm (h : Handler)
    (data : TransactionSummary) (w : World) :
  mutating h = true ->
  let w1 := callback h (status_ok data) w in
  trace w1 = trace w
  /\ summary (state w1) = Some data
  /\ (forall n result,
        refreshes (settle n (Summary result) w) = refreshes w)
  /\ trace (gate_confirm w1) = trace w ++ [UpdateNfts]
  /\ refreshes (gate_confirm w1) = S (refreshes w)
  /\ summary (state (gate_confirm w1)) = None
  /\ gate_confirm (gate_confirm w1) = gate_confirm w1.
Proof.
  intros Hm w1.
  destruct (callback_ok h data w Hm) as (Ht & _ & Hs & _).
  fold w1 in Ht, Hs.
  assert (Hc : gate_confirm w1 = emit UpdateNfts (close w1)).
  { unfold gate_confirm. now rewrite Hs. }
  repeat split; try assumption.
  - intros n result. unfold settle.
    destruct (nth_error (pending w) n) as [h' |]; [| reflexivity].
    cbn [resume]. destruct (mutating h'); [| reflexivity].
    now rewrite callback_refreshes.
  - rewrite Hc. cbn. now rewrite Ht.
  - rewrite Hc, refreshes_emit. cbn [is_refresh].
    rewrite (refreshes_trace w (close w1)) by (cbn; exact Ht). lia.
  - now rewrite Hc.
  - rewrite Hc. reflexivity.
Qed.

(** C4: dismissing the gate empties the summary slot and changes nothing
    else: every dialog flag and the form keep their values, no call is
    issued or forgotten, and the trace of effects (calls, refreshes,
    console errors) is the same as before. *)
Theorem dismiss_only_empties_the_slot (w : World) :
  let w' := gate_dismiss w in
  summary (state w') = None
  /\ transferOpen (state w') = transferOpen (state w)
  /\ assignOpen (state w') = assignOpen (state w)
  /\ unassignOpen (state w') = unassignOpen (state w)
  /\ addUrlOpen (state w') = addUrlOpen (state w)
  /\ burnOpen (state w') = burnOpen (state w)
  /\ addUrlForm (state w') = addUrlForm (state w)
  /\ pending w' = pending w
  /\ trace w' = trace w.
Proof.
  unfold gate_dismiss.
  destruct (summary (state w)) eqn:Hs; cbn; repeat split; assumption.
Qed.

(** C8: when the call of a mutating handler settles with an outcome, the
    handler's dialog flag is false afterwards, on success and on failure
    alike, and the call is no longer in flight; on failure the cause is
    written to the console under the handler's message and the summary slot
    is left alone; on success the summary is stored and nothing is
    written. *)
Theorem surface_closed_on_every_outcome (n : nat) (h : Handler)
    (result : Result TransactionSummary) (w : World) :
  nth_error (pending w) n = Some h ->
  mutating h = true ->
  let w' := settle n (Summary result) w in
  surface_open h (state w') = false
  /\ pending w' = firstn n (pending w) ++ skipn (S n) (pending w)
  /\ match result with
     | status_ok data =>
         trace w' = trace w /\ summary (state w') = Some data
     | status_error e =>
         trace w' = trace w ++ [ConsoleError (failure_message h) e]
         /\ summary (state w') = summary (state w)
     end.
Proof.
  intros Hn Hm w'. subst w'. rewrite (settle_summary n h result w Hn Hm).
  destruct result as [data | e].
  - destruct (callback_ok h data (forget n w) Hm) as (Ht & Hp & Hs & Ho).
    repeat split; assumption.
  - destruct (callback_error h e (forget n w) Hm) as (Ht & Hp & Hs & Ho).
    repeat split; assumption.
Qed.

(** C10: toggling visibility issues [updateNft] with the negated flag and
    touches no component state; on an [ok] outcome its callback invokes
    [updateNfts] at once, with the summary slot and everything else
    unchanged; on an [error] outcome it throws an [Error] and writes
    nothing to the console. *)
Theorem toggle_visibility_bypasses_the_gate (w : World) :
  toggleVisibility nft w
  = {| state := state w;
       pending := pending w ++ [ToggleVisibility];
       trace := trace w
                ++ [Invoke (updateNft (launcher_id nft) (negb (visible nft)))] |}
  /\ (forall u, toggleVisibility_then (status_ok u) w
                = {| state := state w; pending := pending w;
                     trace := trace w ++ [UpdateNfts] |})
  /\ (forall e, toggleVisibility_then (status_error e) w
                = {| state := state w; pending := pending w;
                     trace := trace w
                       ++ [Throw "Failed to toggle visibility for NFT"] |}).
Proof. repeat split. Qed.

(** *** Call shapes *)

(** C6: submitting unassign issues the assign-profile call with the card's
    entity id, a null profile reference and the given fee; submitting
    assign issues the same call with the chosen profile; neither touches
    the component state when issuing. *)
Theorem unassign_is_assign_with_null_profile (fee : string) (w : World) :
  trace (onUnassignSubmit nft fee w)
  = trace w ++ [Invoke (spec_assign_profile [launcher_id nft] None fee)]
  /\ (forall profile,
        trace (onAssignSubmit nft profile fee w)
        = trace w
          ++ [Invoke (spec_assign_profile [launcher_id nft]
                        (Some profile) fee)])
  /\ state (onUnassignSubmit nft fee w) = state w.
Proof. repeat split. Qed.

(** C7: submitting burn issues the transfer call with the card's entity id,
    the host's burn address as destination and the given fee, the very
    call submitting a transfer to that address issues; on success its
    callback stores the summary in the slot as the transfer callback
    does. *)
Theorem burn_is_transfer_to_burn_address (fee : string) (w : World) :
  trace (onBurnSubmit nft sync fee w)
  = trace w ++ [Invoke (spec_burn [launcher_id nft] (burn_address sync) fee)]
  /\ trace (onBurnSubmit nft sync fee w)
     = trace (onTransferSubmit nft (burn_address sync) fee w)
  /\ (forall data,
        summary (state (onBurnSubmit_then (status_ok data) w)) = Some data
        /\ summary (state (onTransferSubmit_then (status_ok data) w))
           = Some data
        /\ trace (onBurnSubmit_then (status_ok data) w) = trace w).
Proof. repeat split. Qed.

(** *** Fee validation *)

Lemma gte_above (b f : Q) : (b < f)%Q -> gte (Some b) (Some f) = false.
Proof.
  intros Hlt. cbn [gte]. destruct (Qle_bool f b) eqn:Hle; [| reflexivity].
  apply Qle_bool_iff in Hle. now apply Qlt_not_le in Hlt.
Qed.

Lemma fee_refine_above (a : string) (b f : Q) :
  BigNumber "" = None ->
  BigNumber a = Some f ->
  BigNumber (balance sync) = Some b ->
  (b < f)%Q ->
  fee_refine sync BigNumber a = false.
Proof.
  intros Hempty Hf Hb Hlt. unfold fee_refine, or_zero.
  destruct (String.eqb_spec a "") as [-> | _]; [congruence |].
  rewrite Hf, Hb. now apply gte_above.
Qed.

Lemma dialog_fee_valid_above (a : string) (b f : Q) :
  BigNumber a = Some f ->
  BigNumber (balance sync) = Some b ->
  (b < f)%Q ->
  dialog_fee_valid sync BigNumber amount a = false.
Proof.
  intros Hf Hb Hlt. unfold dialog_fee_valid.
  rewrite Hf, Hb, (gte_above b f Hlt).
  now rewrite andb_false_r, andb_false_r.
Qed.

(** C2: for each of the five fee-taking submissions (transfer, assign,
    unassign, add URL, burn), if the submitted fee reads as an amount
    strictly above the amount the known balance reads as, the submission
    leaves the card exactly as it was: no call is issued, nothing is put in
    flight, and the count of Command Client calls is unchanged.
    ([BigNumber] reads the empty string as [NaN].) *)
Theorem fee_above_balance_issues_no_call (s : Submission) (w : World)
    (b f : Q) :
  BigNumber "" = None ->
  BigNumber (submitted_fee w s) = Some f ->
  BigNumber (balance sync) = Some b ->
  (b < f)%Q ->
  submit nft sync BigNumber amount s w = w
  /\ calls (submit nft sync BigNumber amount s w) = calls w.
Proof.
  intros Hempty Hf Hb Hlt.
  assert (Hw : submit nft sync BigNumber amount s w = w).
  { destruct s as [address fee | profile fee | fee | | fee];
      cbn [submit submitted_fee] in *.
    - unfold TransferDialog_submit.
      rewrite (dialog_fee_valid_above fee b f Hf Hb Hlt).
      now rewrite !andb_false_r.
    - unfold AssignNftDialog_submit.
      rewrite (dialog_fee_valid_above fee b f Hf Hb Hlt).
      now rewrite !andb_false_r.
    - unfold FeeOnlyDialog_submit.
      rewrite (dialog_fee_valid_above fee b f Hf Hb Hlt).
      now rewrite andb_false_r.
    - destruct (addUrlOpen (state w)); [| reflexivity].
      unfold addUrlForm_handleSubmit, addUrlFormSchema.
      rewrite (fee_refine_above _ b f Hempty Hf Hb Hlt).
      now rewrite !andb_false_r.
    - unfold FeeOnlyDialog_submit.
      rewrite (dialog_fee_valid_above fee b f Hf Hb Hlt).
      now rewrite andb_false_r. }
  split; [exact Hw | now rewrite Hw].
Qed.

End CardFacts.

Section MenuFacts.

Import NftCard.

Context {TransactionSummary Error : Type}.

Local Abbreviation World := (@World TransactionSummary Error).

Variable nft : NftRecord.

Lemma menu_entry_disabled (it : MenuItem) :
  In it (menu nft) ->
  disabled it = if Action_beq (action it) Visibility then false
                else not_ (created_height nft).
Proof.
  unfold menu. destruct (owner_did nft); cbn [app In];
    intros H; repeat (destruct H as [<- | H]; [reflexivity |]);
    destruct H.
Qed.

(** C5: for an entity whose [created_height] is null, every rendered menu
    entry other than the visibility toggle is disabled, so selecting
    transfer, assign, unassign, add URL or burn does nothing; whatever the
    entity, the visibility entry is rendered and enabled, and selecting it
    runs [toggleVisibility]. *)
Theorem unconfirmed_entity_actions_disabled :
  (created_height nft = None ->
     (forall it, In it (menu nft) -> action it <> Visibility ->
                 disabled it = true)
     /\ (forall a, a <> Visibility ->
           enabled nft a = false /\ forall w : World, click nft a w = w))
  /\ (exists it, In it (menu nft) /\ action it = Visibility
                 /\ disabled it = false)
  /\ enabled nft Visibility = true
  /\ (forall w : World, click nft Visibility w = toggleVisibility nft w).
Proof.
  assert (Hv : enabled nft Visibility = true).
  { unfold enabled, menu. destruct (owner_did nft); cbn;
      now rewrite ?andb_false_l, ?orb_true_r. }
  split; [intros Hc; split | repeat split].
  - intros it Hin Ha. rewrite (menu_entry_disabled it Hin), Hc.
    destruct (action it); try reflexivity. now elim Ha.
  - intros a Ha.
    assert (He : enabled nft a = false).
    { unfold enabled, menu. rewrite Hc.
      destruct a, (owner_did nft); try reflexivity; now elim Ha. }
    split; [exact He |]. intros w. unfold click. now rewrite He.
  - exists {| action := Visibility;
              label := if visible nft then "Hide" else "Show";
              disabled := false |}.
    split; [| split; reflexivity].
    unfold menu. destruct (owner_did nft); cbn; tauto.
  - exact Hv.
  - intros w. unfold click. now rewrite Hv.
Qed.

End MenuFacts.

(* ================================================================= *)
(** ** The properties at work on the concrete host *)

Section Runs.

Import NftCard.

Local Open Scope list_scope.

(** C1, as stated, fails: with one summary pending, the answer to a second
    Add URL submission that was already in flight replaces it; neither
    confirm nor dismiss has happened. *)
Lemma pending_summary_silently_replaced :
  summary (state Demo.first_answered) = Some 1
  /\ pending Demo.first_answered = [AddUrlSubmit]
  /\ summary (state (Demo.step Demo.first_answered
                       (Settle 0 (Summary (status_ok 2))))) = Some 2
  /\ trace (Demo.step Demo.first_answered
              (Settle 0 (Summary (status_ok 2))))
     = [Invoke (addNftUri "nft1x" "https://example.org/a.png" "data" "0");
        Invoke (addNftUri "nft1x" "https://example.org/a.png" "data" "0")]
  /\ ~ @pending_summary_kept nat string.
Proof.
  repeat split; try (vm_compute; reflexivity).
  intros Hkept.
  specialize (Hkept Demo.first_answered 0 (Summary (status_ok 2)) 1 eq_refl).
  vm_compute in Hkept. discriminate Hkept.
Qed.

(** The transfer example: fee 0.001 against a balance of 0.01 is accepted,
    one call goes out with exactly the submitted arguments, the summary is
    held until the user confirms, and the refresh fires once. *)
Example transfer_then_confirm :
  trace (Demo.run Demo.submitted
           [Settle 0 (Summary (status_ok 7)); Confirm])
  = [Invoke (transferNfts ["nft1x"] "addr1" "0.001"); UpdateNfts]
  /\ summary (state (Demo.run Demo.submitted
                       [Settle 0 (Summary (status_ok 7))])) = Some 7.
Proof. vm_compute. split; reflexivity. Qed.

(** The Add URL example: an empty URL is rejected by the schema and no
    call goes out. *)
Example add_url_requires_url :
  trace (Demo.run Demo.initial [Click AddUrl; Submit SubmitAddUrl]) = [].
Proof. reflexivity. Qed.

Lemma summary_stored_on_success_emptied_by_close_witness :
  mutating AddUrlSubmit = true
  /\ summary (state (callback AddUrlSubmit (status_ok 2)
                       Demo.first_answered)) = Some 2.
Proof.
  split; [reflexivity |].
  exact (proj1 (summary_stored_on_success_emptied_by_close
                  AddUrlSubmit Demo.first_answered eq_refl) 2).
Defined.

Lemma refresh_once_and_only_on_confirm_witness :
  mutating TransferSubmit = true
  /\ refreshes (gate_confirm
                  (callback TransferSubmit (status_ok 1) Demo.submitted))
     = S (refreshes Demo.submitted).
Proof.
  split; [reflexivity |].
  exact (proj1 (proj2 (proj2 (proj2 (proj2
           (refresh_once_and_only_on_confirm
              TransferSubmit 1 Demo.submitted eq_refl)))))).
Defined.

Lemma surface_closed_on_every_outcome_witness :
  nth_error (pending Demo.submitted) 0 = Some TransferSubmit
  /\ mutating TransferSubmit = true
  /\ surface_open TransferSubmit
       (state (settle 0 (Summary (status_error "invalid address"))
                 Demo.submitted)) = false.
Proof.
  split; [reflexivity | split; [reflexivity |]].
  exact (proj1 (surface_closed_on_every_outcome 0 TransferSubmit
                  (status_error "invalid address") Demo.submitted
                  eq_refl eq_refl)).
Defined.

Lemma unconfirmed_entity_actions_disabled_witness :
  created_height Demo.unconfirmed = None
  /\ enabled Demo.unconfirmed Burn = false.
Proof.
  split; [reflexivity |].
  refine (proj1 (proj2 (proj1 (unconfirmed_entity_actions_disabled
                                 (TransactionSummary := nat)
                                 (Error := string) Demo.unconfirmed)
                              eq_refl) Burn _)).
  discriminate.
Defined.

Lemma fee_above_balance_issues_no_call_witness :
  Demo.decimal_literal "" = None
  /\ Demo.decimal_literal (submitted_fee Demo.overpriced SubmitAddUrl)
     = Some (2 # 100)%Q
  /\ Demo.decimal_literal (balance Demo.sync) = Some (1 # 100)%Q
  /\ (1 # 100 < 2 # 100)%Q
  /\ submit Demo.nft Demo.sync Demo.decimal_literal Demo.amount
       SubmitAddUrl Demo.overpriced = Demo.overpriced.
Proof.
  split; [reflexivity | split; [reflexivity | split; [reflexivity |]]].
  split; [reflexivity |].
  exact (proj1 (fee_above_balance_issues_no_call
                  Demo.nft Demo.sync Demo.decimal_literal Demo.amount
                  SubmitAddUrl Demo.overpriced (1 # 100)%Q (2 # 100)%Q
                  eq_refl eq_refl eq_refl eq_refl)).
Defined.

End Runs.

(* ================================================================= *)
(** ** Properties of the card under any use of its callbacks *)

Section WiringFacts.

Import NftCard Wiring.

Local Open Scope list_scope.

Context {TransactionSummary Error : Type}.

Local Abbreviation World := (@World TransactionSummary Error).
Local Abbreviation Callback := (@Callback TransactionSummary Error).

Variable nft : NftRecord.
Variable sync : SyncState.
Variable BigNumber : string -> option Q.
Variable amount : Z -> string -> bool.

Local Abbreviation react := (react nft sync BigNumber amount).
Local Abbreviation reacts := (reacts nft sync BigNumber amount).

(** *** One callback at a time *)

Lemma forget_length (n : nat) (w : World) :
  (List.length (pending (forget n w)) <= List.length (pending w))%nat.
Proof.
  cbn [forget pending]. rewrite length_app, length_firstn, length_skipn. lia.
Qed.

Lemma then_events (h : Handler) (r : @Response TransactionSummary Error)
    (k : World -> World) (w : World) :
  resume h r = Some k ->
  pending (k w) = pending w
  /\ exists es, trace (k w) = trace w ++ es
                /\ (List.length es <= 1)%nat
                /\ filter is_invoke es = [].
Proof.
  destruct r as [[u | e] | [data | e] |], h; cbn; intros Hk;
    try discriminate Hk; injection Hk as <-; split; try reflexivity;
    first [ exists []; rewrite app_nil_r; repeat split; cbn;
            solve [reflexivity | lia]
          | eexists [_]; repeat split; cbn; solve [reflexivity | lia] ].
Qed.

(** What one callback does to the trace and to the calls in flight: it
    appends at most one effect; if that effect is a call, the call is about
    the card's own entity; and the calls in flight grow by at most the calls
    issued. *)
Lemma react_footprint (w : World) (c : Callback) :
  exists es,
    trace (react w c) = trace w ++ es
    /\ (List.length es <= 1)%nat
    /\ Forall (about_own_entity nft) es
    /\ (List.length (pending (react w c))
        <= List.length (pending w) + List.length (filter is_invoke es))%nat.
Proof.
  assert (Hquiet : forall w' : World,
             trace w' = trace w -> pending w' = pending w ->
             exists es,
               trace w' = trace w ++ es
               /\ (List.length es <= 1)%nat
               /\ Forall (about_own_entity nft) es
               /\ (List.length (pending w')
                   <= List.length (pending w)
                      + List.length (filter is_invoke es))%nat).
  { intros w' Ht Hp. exists []. rewrite Ht, Hp, app_nil_r. cbn.
    repeat split; [lia | constructor | lia]. }
  assert (Hissue : forall (cmd : Command) (h : Handler),
             targets cmd = [launcher_id nft] ->
             exists es,
               trace (call cmd h w) = trace w ++ es
               /\ (List.length es <= 1)%nat
               /\ Forall (about_own_entity nft) es
               /\ (List.length (pending (call cmd h w))
                   <= List.length (pending w)
                      + List.length (filter is_invoke es))%nat).
  { intros cmd h Hc. exists [Invoke cmd]. cbn. rewrite length_app. cbn.
    repeat split; [lia | now repeat constructor | lia]. }
  destruct c as [a | values | | a b | address fee | profile fee | fee | fee
                 | | | n r]; cbn [Wiring.react].
  - unfold click. destruct (enabled nft a); [| now apply Hquiet].
    destruct a; try (now apply Hquiet). now apply Hissue.
  - now apply Hquiet.
  - unfold addUrlForm_handleSubmit.
    destruct (addUrlFormSchema _ _ _ _); [| now apply Hquiet].
    now apply Hissue.
  - destruct a; now apply Hquiet.
  - now apply Hissue.
  - now apply Hissue.
  - now apply Hissue.
  - now apply Hissue.
  - now apply Hquiet.
  - exists [UpdateNfts]. cbn. repeat split; [lia | now repeat constructor | lia].
  - unfold settle. destruct (nth_error (pending w) n) as [h |] eqn:Hn;
      [| now apply Hquiet].
    destruct (resume h r) as [k |] eqn:Hk; [| now apply Hquiet].
    destruct (then_events h r k (forget n w) Hk) as (Hp & es & Ht & Hl & Hi).
    exists es. rewrite Ht, Hp, Hi. cbn [forget trace].
    repeat split; try assumption.
    + clear - Hi. induction es as [| e es IH]; constructor.
      * destruct e; try exact I. discriminate Hi.
      * apply IH. cbn in Hi. destruct (is_invoke e); [discriminate Hi | exact Hi].
    + pose proof (forget_length n w). cbn [List.length]. lia.
Qed.

(** *** Any sequence of callbacks *)

Lemma calls_after (w w' : World) (es : list Event) :
  trace w' = trace w ++ es ->
  calls w' = (calls w + List.length (filter is_invoke es))%nat.
Proof. unfold calls. intros ->. now rewrite filter_app, length_app. Qed.

Lemma reacts_own_entity (w : World) (cs : list Callback) :
  Forall (about_own_entity nft) (trace w) ->
  Forall (about_own_entity nft) (trace (reacts w cs)).
Proof.
  revert w. induction cs as [| c cs IH]; intros w Hw; [exact Hw |].
  cbn [Wiring.reacts fold_left]. apply IH.
  destruct (react_footprint w c) as (es & -> & _ & Hes & _).
  apply Forall_app. now split.
Qed.

Lemma reacts_in_flight (w : World) (cs : list Callback) :
  (List.length (pending w) <= calls w)%nat ->
  (List.length (pending (reacts w cs)) <= calls (reacts w cs))%nat.
Proof.
  revert w. induction cs as [| c cs IH]; intros w Hw; [exact Hw |].
  cbn [Wiring.reacts fold_left]. apply IH.
  destruct (react_footprint w c) as (es & Ht & _ & _ & Hp).
  rewrite (calls_after w _ es Ht). lia.
Qed.

Lemma reacts_calls (w : World) (cs : list Callback) :
  (calls (reacts w cs) <= calls w + List.length cs)%nat.
Proof.
  revert w. induction cs as [| c cs IH]; intros w; [cbn; lia |].
  cbn [Wiring.reacts fold_left List.length].
  specialize (IH (react w c)). unfold Wiring.reacts in IH.
  destruct (react_footprint w c) as (es & Ht & Hl & _).
  rewrite (calls_after w _ es Ht) in IH.
  pose proof (filter_length_le is_invoke es). lia.
Qed.

(** Every call the card ever issues is about the card's own entity: after
    any sequence of callbacks from the initial state, each [Invoke] in the
    trace targets exactly [nft.launcher_id]. *)
Theorem calls_target_own_entity (cs : list Callback) :
  Forall (about_own_entity nft) (trace (reacts initial cs)).
Proof. apply reacts_own_entity. constructor. Qed.

(** Effects are never retracted and never come in bursts: after any sequence
    of callbacks the old trace is a prefix of the new one, and at most one
    effect was appended per callback. *)
Theorem effects_only_accumulate (w : World) (cs : list Callback) :
  exists es,
    trace (reacts w cs) = trace w ++ es
    /\ (List.length es <= List.length cs)%nat.
Proof.
  revert w. induction cs as [| c cs IH]; intros w.
  - exists []. now rewrite app_nil_r.
  - cbn [Wiring.reacts fold_left].
    destruct (react_footprint w c) as (es1 & Ht1 & Hl1 & _).
    destruct (IH (react w c)) as (es2 & Ht2 & Hl2).
    exists (es1 ++ es2). split.
    + unfold Wiring.reacts in Ht2. rewrite Ht2, Ht1. now rewrite app_assoc.
    + rewrite length_app. cbn [List.length]. lia.
Qed.

(** The calls in flight never outnumber the calls issued, and the calls
    issued never outnumber the callbacks run: from the initial state, after
    any sequence of callbacks. *)
Theorem in_flight_never_exceeds_calls (cs : list Callback) :
  (List.length (pending (reacts initial cs)) <= calls (reacts initial cs))%nat
  /\ (calls (reacts initial cs) <= List.length cs)%nat.
Proof.
  split.
  - apply reacts_in_flight. cbn. lia.
  - pose proof (reacts_calls initial cs) as Hc. cbn in Hc. exact Hc.
Qed.

(** [updateNfts] runs exactly when the confirmation dialog calls
    [onConfirm] or a visibility call settles with [ok]: every callback
    changes the number of refreshes by one in those two cases and by nothing
    in all others. *)
Theorem refresh_exactly_when_refreshing (w : World) (c : Callback) :
  refreshes (react w c)
  = (refreshes w + if refreshing w c then 1 else 0)%nat.
Proof.
  assert (Hsame : forall w' : World,
             trace w' = trace w -> refreshes w' = (refreshes w + 0)%nat).
  { intros w' Ht. unfold refreshes. rewrite Ht. lia. }
  assert (Hone : forall (w' : World) (e : Event),
             trace w' = trace w ++ [e] ->
             refreshes w'
             = (refreshes w + if is_refresh e then 1 else 0)%nat).
  { intros w' e Ht. unfold refreshes. rewrite Ht, filter_app, length_app.
    cbn. now destruct (is_refresh e). }
  destruct c as [a | values | | a b | address fee | profile fee | fee | fee
                 | | | n r]; cbn [Wiring.react refreshing].
  - unfold click. destruct (enabled nft a); [| now apply Hsame].
    destruct a; try (now apply Hsame).
    now apply (Hone _ (Invoke (updateNft (launcher_id nft)
                                 (negb (visible nft))))).
  - now apply Hsame.
  - unfold addUrlForm_handleSubmit.
    destruct (addUrlFormSchema _ _ _ _); [| now apply Hsame].
    eapply (Hone _ (Invoke _)). reflexivity.
  - destruct a; now apply Hsame.
  - eapply (Hone _ (Invoke _)); reflexivity.
  - eapply (Hone _ (Invoke _)); reflexivity.
  - eapply (Hone _ (Invoke _)); reflexivity.
  - eapply (Hone _ (Invoke _)); reflexivity.
  - now apply Hsame.
  - now apply (Hone _ UpdateNfts).
  - unfold settle.
    destruct (nth_error (pending w) n) as [h |];
      [| destruct r as [[u | e] | |]; now apply Hsame].
    destruct r as [[u | e] | [data | e] |], h; cbn [resume mutating].
    all: try (now apply Hsame).
    all: try (now apply (Hone _ UpdateNfts)).
    all: erewrite Hone by reflexivity; reflexivity.
Qed.

(** The summary slot changes only in two ways: [close] empties it, and an
    [ok] outcome of a mutating call in flight fills it with that outcome's
    summary.  Every other callback, with any arguments, leaves it as it
    was. *)
Theorem summary_changes_only_by_outcome_or_close (w : World) (c : Callback) :
  summary (state (react w c))
  = match c with
    | Close => None
    | Settled n (Summary (status_ok data)) =>
        match nth_error (pending w) n with
        | Some h => if mutating h then Some data else summary (state w)
        | None => summary (state w)
        end
    | _ => summary (state w)
    end.
Proof.
  destruct c as [a | values | | a b | address fee | profile fee | fee | fee
                 | | | n r]; cbn [Wiring.react]; try reflexivity.
  - unfold click. destruct (enabled nft a); [| reflexivity].
    now destruct a.
  - unfold addUrlForm_handleSubmit.
    now destruct (addUrlFormSchema _ _ _ _).
  - now destruct a.
  - unfold settle.
    destruct (nth_error (pending w) n) as [h |];
      [| now destruct r as [[u | e] | [data | e] |]].
    now destruct r as [[u | e] | [data | e] |], h.
Qed.

(** *** The menu *)

(** A menu entry reacts exactly when it is the visibility toggle, or the
    entity's [created_height] is neither null nor 0 and, for unassign, the
    entity has an owner profile (the entry is rendered only then). *)
Theorem enabled_iff (a : Action) :
  enabled nft a = true
  <-> a = Visibility
      \/ (not_ (created_height nft) = false
          /\ (a = Unassign -> owner_did nft <> None)).
Proof.
  unfold enabled, menu.
  destruct (not_ (created_height nft)), (owner_did nft) as [did |], a;
    cbn; split; intros H; try reflexivity; try discriminate H;
    try (now left); try (right; split; [reflexivity | congruence]);
    destruct H as [H | [H1 H2]]; try discriminate H; try discriminate H1;
    now elim H2.
Qed.

Lemma select_unconfirmed (a : Action) (w : World) :
  not_ (created_height nft) = true ->
  react w (Select a)
  = if Action_beq a Visibility then toggleVisibility nft w else w.
Proof.
  intros Hc. cbn [Wiring.react]. unfold click, enabled, menu. rewrite Hc.
  now destruct a, (owner_did nft).
Qed.

(** While [created_height] is null or 0, no sequence of menu selections
    opens a dialog or changes any state of the card; the only thing such a
    sequence does is issue one [updateNft] call per selection of the
    visibility entry. *)
Theorem unconfirmed_menu_only_toggles (selections : list Action) (w : World) :
  not_ (created_height nft) = true ->
  let w' := reacts w (map Select selections) in
  let toggles := count_occ Action_eq_dec selections Visibility in
  state w' = state w
  /\ pending w' = pending w ++ repeat ToggleVisibility toggles
  /\ trace w'
     = trace w
       ++ repeat (Invoke (updateNft (launcher_id nft) (negb (visible nft))))
            toggles.
Proof.
  intros Hc. revert w.
  induction selections as [| a rest IH]; intros w; cbn zeta.
  - cbn. now rewrite !app_nil_r.
  - cbn [map Wiring.reacts fold_left]. rewrite (select_unconfirmed a w Hc).
    specialize (IH (if Action_beq a Visibility then toggleVisibility nft w
                    else w)).
    cbn zeta in IH. unfold Wiring.reacts in IH.
    destruct IH as (Hs & Hp & Ht). rewrite Hs, Hp, Ht.
    destruct a; cbn [Action_beq count_occ];
      try (destruct (Action_eq_dec _ Visibility) as [Heq | _];
           [discriminate Heq |]); try (repeat split; reflexivity).
    destruct (Action_eq_dec Visibility Visibility) as [_ | Hne];
      [| now elim Hne].
    cbn [toggleVisibility call state pending trace repeat].
    rewrite <- !app_assoc. repeat split.
Qed.

(** *** The Add URL form *)

(** Selecting Add URL, when the entry reacts, resets the form to its
    defaults and opens the dialog; submitting straight away is rejected (the
    URL is required) whatever was typed before and whatever the balance. *)
Theorem reopening_add_url_resets_form (w : World) :
  enabled nft AddUrl = true ->
  let w1 := react w (Select AddUrl) in
  addUrlForm (state w1) = defaultValues
  /\ addUrlOpen (state w1) = true
  /\ react w1 FormSubmit = w1.
Proof.
  intros He. cbn [Wiring.react]. unfold click. rewrite He.
  repeat split.
Qed.

(** Nothing holds a second submission back: if the form's values pass the
    schema, [n] submissions in a row issue [n] identical [addNftUri] calls,
    all in flight at once, and the card's state is the same as before. *)
Theorem every_valid_submission_issues_a_call (n : nat) (w : World) :
  addUrlFormSchema sync BigNumber amount (addUrlForm (state w)) = true ->
  let w' := reacts w (repeat FormSubmit n) in
  let v := addUrlForm (state w) in
  state w' = state w
  /\ pending w' = pending w ++ repeat AddUrlSubmit n
  /\ trace w'
     = trace w
       ++ repeat (Invoke (addNftUri (launcher_id nft) (url v) (kind v) (fee v)))
            n.
Proof.
  revert w. induction n as [| n IH]; intros w Hv; cbn zeta.
  - cbn. now rewrite !app_nil_r.
  - cbn [repeat Wiring.reacts fold_left Wiring.react].
    unfold addUrlForm_handleSubmit. rewrite Hv.
    specialize (IH (onAddUrlSubmit nft (addUrlForm (state w)) w) Hv).
    cbn zeta in IH. unfold Wiring.reacts in IH.
    destruct IH as (Hs & Hp & Ht). rewrite Hs, Hp, Ht.
    cbn [onAddUrlSubmit call state pending trace].
    rewrite <- !app_assoc. repeat split.
Qed.

(** When the known balance does not read as a number, no Add URL submission
    goes out, whatever the form holds. *)
Theorem unreadable_balance_blocks_add_url (w : World) :
  BigNumber (balance sync) = None ->
  react w FormSubmit = w.
Proof.
  intros Hb. cbn [Wiring.react].
  unfold addUrlForm_handleSubmit, addUrlFormSchema, fee_refine.
  rewrite Hb. cbn [gte]. now rewrite !andb_false_r.
Qed.

(** The balance check is inclusive: with a URL and a kind filled in and a
    fee the amount schema accepts, a fee that reads as at most the balance,
    equality included, lets the submission through, and the call carries
    the form's values as typed. *)
Theorem fee_up_to_balance_is_submitted (w : World) (b f : Q) :
  let v := addUrlForm (state w) in
  url v <> "" ->
  kind v <> "" ->
  amount (unit_decimals sync) (fee v) = true ->
  BigNumber "" = None ->
  BigNumber (fee v) = Some f ->
  BigNumber (balance sync) = Some b ->
  (f <= b)%Q ->
  trace (react w FormSubmit)
  = trace w ++ [Invoke (addNftUri (launcher_id nft) (url v) (kind v) (fee v))]
  /\ pending (react w FormSubmit) = pending w ++ [AddUrlSubmit]
  /\ state (react w FormSubmit) = state w.
Proof.
  intros v Hu Hk Ha Hempty Hf Hb Hle.
  assert (Hmin : forall s : string, s <> "" -> min1 s = true).
  { intros [| c s] Hs; [now elim Hs | reflexivity]. }
  assert (Hv : addUrlFormSchema sync BigNumber amount v = true).
  { unfold addUrlFormSchema, fee_refine, or_zero.
    rewrite (Hmin _ Hu), (Hmin _ Hk), Ha.
    destruct (String.eqb_spec (fee v) "") as [He | _]; [congruence |].
    rewrite Hf, Hb. cbn [gte andb]. now apply Qle_bool_iff. }
  cbn [Wiring.react]. unfold addUrlForm_handleSubmit. fold v. rewrite Hv.
  repeat split.
Qed.

(** *** Settling *)

(** The callback of a mutating handler touches its own dialog flag and the
    summary slot only: the four other dialog flags, the form and the calls
    in flight are as before. *)
Theorem callback_leaves_other_dialogs (h : Handler)
    (result : @Result Error TransactionSummary) (w : World) (i : nat) :
  flag_index h <> Some i ->
  nth_error (flags (state (callback h result w))) i
  = nth_error (flags (state w)) i
  /\ addUrlForm (state (callback h result w)) = addUrlForm (state w)
  /\ pending (callback h result w) = pending w.
Proof.
  intros Hi.
  destruct h, result as [data | e]; cbn; repeat split;
    destruct i as [| [| [| [| [| i]]]]]; try reflexivity; now elim Hi.
Qed.

(** A call whose promise rejects changes nothing on the card: there is no
    rejection handler, so no dialog is closed, nothing is written to the
    console, no refresh runs and the summary slot is untouched. *)
Theorem rejected_call_leaves_card_untouched (n : nat) (w : World) :
  state (react w (Settled n Fault)) = state w
  /\ trace (react w (Settled n Fault)) = trace w.
Proof.
  cbn [Wiring.react]. unfold settle.
  now destruct (nth_error (pending w) n).
Qed.

End WiringFacts.

(* ================================================================= *)
(** ** Properties of the header *)

Section HeaderFacts.

Import Header.

Local Open Scope Z_scope.
Local Open Scope list_scope.

Local Abbreviation higher :=
  (fun (max : Z) (peer : PeerRecord) => Z.max max (peak_height peer)).

Lemma or_zero_number (n : Z) : or_zero (Some n) = n.
Proof. cbn. destruct (Z.eqb_spec n 0); congruence. Qed.

Lemma peerMaxHeight_some (ps : list PeerRecord) :
  peerMaxHeight (Some ps) = fold_left higher ps 0.
Proof. unfold peerMaxHeight. cbn [option_map]. apply or_zero_number. Qed.

Lemma highest_from (ps : list PeerRecord) (a : Z) :
  0 <= a -> fold_left higher ps a = Z.max a (fold_left higher ps 0).
Proof.
  revert a. induction ps as [| p ps IH]; intros a Ha; cbn [fold_left].
  - lia.
  - rewrite (IH (Z.max a (peak_height p))) by lia.
    rewrite (IH (Z.max 0 (peak_height p))) by lia. lia.
Qed.

Lemma highest_nonneg (ps : list PeerRecord) : 0 <= fold_left higher ps 0.
Proof.
  destruct ps as [| p ps]; cbn [fold_left]; [lia |].
  rewrite highest_from by lia. lia.
Qed.

Lemma highest_cons (p : PeerRecord) (ps : list PeerRecord) :
  fold_left higher (p :: ps) 0
  = Z.max (Z.max 0 (peak_height p)) (fold_left higher ps 0).
Proof. cbn [fold_left]. apply highest_from. lia. Qed.

Lemma highest_upper (ps : list PeerRecord) :
  Forall (fun p => peak_height p <= fold_left higher ps 0) ps.
Proof.
  induction ps as [| p ps IH]; [constructor |].
  rewrite highest_cons. constructor; [lia |].
  eapply Forall_impl; [| exact IH]. cbn. intros q Hq. lia.
Qed.

Lemma highest_attained (ps : list PeerRecord) :
  fold_left higher ps 0 = 0
  \/ Exists (fun p => peak_height p = fold_left higher ps 0) ps.
Proof.
  induction ps as [| p ps IH]; [now left |].
  rewrite highest_cons.
  destruct (Z.max_spec (Z.max 0 (peak_height p)) (fold_left higher ps 0))
    as [[Hlt ->] | [Hle ->]].
  - pose proof (highest_nonneg ps). destruct IH as [H0 | Hex]; [lia |].
    right. now apply Exists_cons_tl.
  - destruct (Z.max_spec 0 (peak_height p)) as [[_ ->] | [_ ->]];
      [right; now apply Exists_cons_hd | now left].
Qed.

(** The peak shown in the header is never negative, is at least every
    peer's peak height, and is either 0 or the peak height of one of the
    peers. *)
Theorem peerMaxHeight_bounds (ps : list PeerRecord) :
  0 <= peerMaxHeight (Some ps)
  /\ Forall (fun p => peak_height p <= peerMaxHeight (Some ps)) ps
  /\ (peerMaxHeight (Some ps) = 0
      \/ Exists (fun p => peak_height p = peerMaxHeight (Some ps)) ps).
Proof.
  rewrite peerMaxHeight_some. split; [apply highest_nonneg |].
  split; [apply highest_upper | apply highest_attained].
Qed.

(** Peers that arrive in two batches give the larger of the two peaks. *)
Theorem peerMaxHeight_app (ps qs : list PeerRecord) :
  peerMaxHeight (Some (ps ++ qs))
  = Z.max (peerMaxHeight (Some ps)) (peerMaxHeight (Some qs)).
Proof.
  rewrite !peerMaxHeight_some, fold_left_app.
  apply highest_from, highest_nonneg.
Qed.

Lemma highest_permutation (ps qs : list PeerRecord) :
  Permutation ps qs ->
  forall a, fold_left higher ps a = fold_left higher qs a.
Proof.
  induction 1 as [| p ps qs _ IH | p q ps | ps qs rs _ IH1 _ IH2];
    intros a; cbn [fold_left].
  - reflexivity.
  - apply IH.
  - f_equal. lia.
  - now rewrite IH1.
Qed.

(** The peak does not depend on the order in which the peers are listed. *)
Theorem peerMaxHeight_permutation (ps qs : list PeerRecord) :
  Permutation ps qs ->
  peerMaxHeight (Some ps) = peerMaxHeight (Some qs).
Proof.
  intros H. rewrite !peerMaxHeight_some. now apply highest_permutation.
Qed.

Lemma peerMaxHeight_zero_iff (ps : list PeerRecord) :
  peerMaxHeight (Some ps) = 0 <-> Forall (fun p => peak_height p <= 0) ps.
Proof.
  rewrite peerMaxHeight_some.
  pose proof (highest_upper ps) as Hall.
  pose proof (highest_attained ps) as Hex. split.
  - intros H0. rewrite H0 in Hall. exact Hall.
  - intros Hle. destruct Hex as [H0 | Hex]; [exact H0 |].
    apply Exists_exists in Hex. destruct Hex as (p & Hin & Hp).
    rewrite Forall_forall in Hle. specialize (Hle p Hin).
    pose proof (highest_nonneg ps). lia.
Qed.

Lemma append_cancel (s a b : string) :
  (s ++ a)%string = (s ++ b)%string -> a = b.
Proof.
  induction s as [| c s IH]; cbn; intros H; [exact H |].
  injection H as H. now apply IH.
Qed.

(** When the wallet is synced, the header says "connecting..." exactly when
    no listed peer reports a positive peak height, even if peers are
    connected; otherwise it shows the highest peak. *)
Theorem status_connecting_iff (sync : SyncCounts) (ps : list PeerRecord) :
  isSynced sync = true ->
  (statusText sync (Some ps)
   = (show (Z.of_nat (List.length ps)) ++ " peers connecting...")%string
   <-> Forall (fun p => peak_height p <= 0) ps)
  /\ (statusText sync (Some ps)
      = (show (Z.of_nat (List.length ps)) ++ " peers connecting...")%string
      \/ statusText sync (Some ps)
         = (show (Z.of_nat (List.length ps)) ++ " peers at peak "
            ++ show (peerMaxHeight (Some ps)))%string).
Proof.
  intros Hs. unfold statusText. rewrite Hs.
  rewrite <- peerMaxHeight_zero_iff.
  destruct (Z.eqb_spec (peerMaxHeight (Some ps)) 0) as [H0 | Hne].
  - split; [| now left]. split; [intros _; exact H0 | reflexivity].
  - split; [| now right]. split; [| intros H0; now elim Hne].
    intros H. apply append_cancel in H. cbn in H. discriminate H.
Qed.

(** *** The back button *)

Lemma split_nonempty (sep : ascii) (s : string) : split sep s <> [].
Proof.
  destruct s as [| c s]; cbn; [discriminate |].
  destruct (Ascii.eqb c sep); [discriminate |].
  destruct (split sep s); discriminate.
Qed.

(** Splitting loses nothing: joining the pieces with the separator gives
    the string back, and there is one piece more than there are
    separators. *)
Lemma split_join (sep : ascii) (s : string) :
  String.concat (String sep EmptyString) (split sep s) = s
  /\ List.length (split sep s) = S (occurrences sep s).
Proof.
  induction s as [| c s (Hj & Hl)]; [now split |].
  cbn [split occurrences].
  destruct (Ascii.eqb_spec c sep) as [-> | Hne].
  - pose proof (split_nonempty sep s) as Hne.
    destruct (split sep s) as [| piece pieces] eqn:Hsp; [now elim Hne |].
    split; [| cbn [List.length] in *; lia].
    cbn [String.concat String.append] in *. congruence.
  - pose proof (split_nonempty sep s) as Hn.
    destruct (split sep s) as [| piece pieces] eqn:Hsp; [now elim Hn |].
    split; [| cbn [List.length] in *; cbn; lia].
    destruct pieces as [| next pieces];
      cbn [String.concat String.append] in *; congruence.
Qed.

(** The back button is shown exactly when a [back] handler was passed or
    the path has at least two slashes. *)
Theorem hasBackButton_iff (back : bool) (pathname : string) :
  hasBackButton back pathname = true
  <-> back = true \/ (2 <= occurrences "/" pathname)%nat.
Proof.
  unfold hasBackButton. destruct (split_join "/" pathname) as [_ ->].
  rewrite orb_true_iff, Nat.ltb_lt. intuition lia.
Qed.


End HeaderFacts.

(* ================================================================= *)
(** ** Properties of the card's face *)


(* ================================================================= *)
(** ** The requests of the command wrappers *)

(** The request on the wire determines the call: two calls of the wrappers
    that send the same command name and the same argument object are the
    same function applied to the same arguments. *)
Theorem request_determines_operation {DerivationMode : Type}
    (o1 o2 : @Commands.Op DerivationMode) :
  Commands.command_name o1 = Commands.command_name o2 ->
  Commands.command_args o1 = Commands.command_args o2 ->
  o1 = o2.
Proof.
  destruct o1, o2; cbn; intros Hn Ha; try discriminate Hn;
    try reflexivity; injection Ha; intros; subst; reflexivity.
Qed.

(* ================================================================= *)
(** ** The further properties at work on the concrete host *)

Section MoreRuns.

Import NftCard Wiring.

Local Open Scope list_scope.

Local Abbreviation demo_react :=
  (Wiring.react (TransactionSummary := nat) (Error := string)
     Demo.nft Demo.sync Demo.decimal_literal Demo.amount).
Local Abbreviation demo_reacts :=
  (Wiring.reacts (TransactionSummary := nat) (Error := string)
     Demo.nft Demo.sync Demo.decimal_literal Demo.amount).

Lemma unconfirmed_menu_only_toggles_witness :
  not_ (created_height Demo.unconfirmed) = true
  /\ state (Wiring.reacts Demo.unconfirmed Demo.sync Demo.decimal_literal
              Demo.amount Demo.initial
              (map Select [Transfer; Visibility; Burn; Visibility]))
     = state Demo.initial.
Proof.
  split; [reflexivity |].
  exact (proj1 (unconfirmed_menu_only_toggles Demo.unconfirmed Demo.sync
                  Demo.decimal_literal Demo.amount
                  [Transfer; Visibility; Burn; Visibility] Demo.initial
                  eq_refl)).
Defined.

Lemma reopening_add_url_resets_form_witness :
  enabled Demo.nft AddUrl = true
  /\ addUrlForm (state (demo_react Demo.overpriced (Select AddUrl)))
     = defaultValues.
Proof.
  split; [reflexivity |].
  exact (proj1 (reopening_add_url_resets_form Demo.nft Demo.sync
                  Demo.decimal_literal Demo.amount Demo.overpriced eq_refl)).
Defined.

Lemma every_valid_submission_issues_a_call_witness :
  addUrlFormSchema Demo.sync Demo.decimal_literal Demo.amount
    (addUrlForm (state (demo_react Demo.initial
                          (FormChange (Demo.typed "0.01"))))) = true
  /\ pending (demo_reacts
                (demo_react Demo.initial (FormChange (Demo.typed "0.01")))
                (repeat FormSubmit 3))
     = [] ++ repeat AddUrlSubmit 3.
Proof.
  split; [reflexivity |].
  exact (proj1 (proj2 (every_valid_submission_issues_a_call Demo.nft Demo.sync
                         Demo.decimal_literal Demo.amount 3
                         (demo_react Demo.initial
                            (FormChange (Demo.typed "0.01")))
                         eq_refl))).
Defined.

Lemma unreadable_balance_blocks_add_url_witness :
  Demo.decimal_literal
    (balance {| balance := "n/a"; unit_decimals := 12;
                burn_address := "xch1burn" |}) = None
  /\ Wiring.react (TransactionSummary := nat) (Error := string) Demo.nft
       {| balance := "n/a"; unit_decimals := 12; burn_address := "xch1burn" |}
       Demo.decimal_literal Demo.amount
       (demo_react Demo.initial (FormChange (Demo.typed "0"))) FormSubmit
     = demo_react Demo.initial (FormChange (Demo.typed "0")).
Proof.
  split; [reflexivity |].
  exact (unreadable_balance_blocks_add_url Demo.nft
           {| balance := "n/a"; unit_decimals := 12;
              burn_address := "xch1burn" |}
           Demo.decimal_literal Demo.amount
           (demo_react Demo.initial (FormChange (Demo.typed "0"))) eq_refl).
Defined.

Lemma fee_up_to_balance_is_submitted_witness :
  Demo.decimal_literal "" = None
  /\ Demo.decimal_literal "0.01" = Some (1 # 100)%Q
  /\ (1 # 100 <= 1 # 100)%Q
  /\ trace (demo_react
              (demo_react Demo.initial (FormChange (Demo.typed "0.01")))
              FormSubmit)
     = [] ++ [Invoke (addNftUri "nft1x" "https://example.org/a.png" "data"
                        "0.01")].
Proof.
  split; [reflexivity | split; [reflexivity |]].
  split; [apply Qle_refl |].
  refine (proj1 (fee_up_to_balance_is_submitted Demo.nft Demo.sync
                   Demo.decimal_literal Demo.amount
                   (demo_react Demo.initial (FormChange (Demo.typed "0.01")))
                   (1 # 100)%Q (1 # 100)%Q _ _ eq_refl eq_refl eq_refl eq_refl
                   (Qle_refl _))); discriminate.
Defined.

Lemma callback_leaves_other_dialogs_witness :
  flag_index TransferSubmit <> Some 4%nat
  /\ nth_error (flags (state (callback TransferSubmit
                                (status_error "invalid address")
                                Demo.submitted))) 4
     = nth_error (flags (state Demo.submitted)) 4.
Proof.
  split; [discriminate |].
  refine (proj1 (callback_leaves_other_dialogs TransferSubmit
                   (status_error "invalid address") Demo.submitted 4 _)).
  discriminate.
Defined.

Lemma peerMaxHeight_permutation_witness :
  Permutation [ {| Header.peak_height := 120 |}; {| Header.peak_height := 7 |} ]
              [ {| Header.peak_height := 7 |}; {| Header.peak_height := 120 |} ]
  /\ Header.peerMaxHeight
       (Some [ {| Header.peak_height := 120 |}; {| Header.peak_height := 7 |} ])
     = Header.peerMaxHeight
         (Some [ {| Header.peak_height := 7 |};
                 {| Header.peak_height := 120 |} ]).
Proof.
  split; [apply perm_swap |].
  exact (peerMaxHeight_permutation _ _ (perm_swap _ _ _)).
Defined.

Lemma status_connecting_iff_witness :
  Header.isSynced {| Header.synced_coins := 3; Header.total_coins := 3 |}
  = true
  /\ (Header.statusText
        {| Header.synced_coins := 3; Header.total_coins := 3 |}
        (Some [ {| Header.peak_height := 0 |} ])
      = (Header.show 1 ++ " peers connecting...")%string
      <-> Forall (fun p => (Header.peak_height p <= 0)%Z)
            [ {| Header.peak_height := 0 |} ]).
Proof.
  split; [reflexivity |].
  exact (proj1 (status_connecting_iff
                  {| Header.synced_coins := 3; Header.total_coins := 3 |}
                  [ {| Header.peak_height := 0 |} ] eq_refl)).
Defined.

Lemma request_determines_operation_witness :
  Commands.command_name (@Commands.OpLoginWallet unit 7)
  = Commands.command_name (@Commands.OpLoginWallet unit 7)
  /\ Commands.command_args (@Commands.OpLoginWallet unit 7)
     = Commands.command_args (@Commands.OpLoginWallet unit 7)
  /\ @Commands.OpLoginWallet unit 7 = @Commands.OpLoginWallet unit 7.
Proof.
  split; [reflexivity | split; [reflexivity |]].
  exact (request_determines_operation (@Commands.OpLoginWallet unit 7)
           (@Commands.OpLoginWallet unit 7) eq_refl eq_refl).
Defined.

End MoreRuns.
